(** * The DeepInfra provider factory

    A shallow embedding of [packages/deepinfra/src/deepinfra-provider.ts]:
    [createDeepInfra] and the closures it builds ([getHeaders],
    [getCommonModelConfig], the four [create*Model] functions and the
    provider object), followed by the properties the specification states
    about them.

    JavaScript objects are finite maps from property names to values
    ([gmap string _]); a call that may throw returns a [Result]; whatever a
    closure reads when it is *called* (the caller's settings object, the
    process environment) is read from the [World] it is called in. *)

From stdpp Require Import gmap strings.

Open Scope string_scope.

(** ** Values *)

(** A [fetch] implementation is a function value the adapter never calls:
    it is known by its reference only. *)
Inductive FetchFunction : Type :=
| FetchRef (id : positive).

(** [DeepInfraProviderSettings]: every field is optional ([None] is
    [undefined]). *)
Module Options.
Record DeepInfraProviderSettings : Type := {
  apiKey : option string;
  baseURL : option string;
  headers : option (gmap string string);
  fetch : option FetchFunction
}.
End Options.
Abbreviation DeepInfraProviderSettings := Options.DeepInfraProviderSettings.

(** The object literal [{}] of the default parameter [options = {}]. *)
Definition empty_options : DeepInfraProviderSettings :=
  {| Options.apiKey := None; Options.baseURL := None;
     Options.headers := None; Options.fetch := None |}.

(** ** The world a call runs in

    [createDeepInfra] keeps the *reference* [options] in its closures, and
    [getHeaders] and [getCommonModelConfig] read its fields when they are
    called.  The heap gives the present contents of the settings objects the
    caller owns; [process_env] is [process.env]. *)
Definition loc : Type := positive.

Record World : Type := {
  heap : loc -> DeepInfraProviderSettings;
  process_env : gmap string string
}.

(** The binding [options] inside [createDeepInfra]: the object the caller
    passed, or the fresh [{}] of the default parameter, which nothing else
    refers to and which this file never writes. *)
Inductive OptionsVar : Type :=
| CallerObject (l : loc)
| FreshObject.

Definition deref (options : OptionsVar) (w : World) : DeepInfraProviderSettings :=
  match options with
  | CallerObject l => heap w l
  | FreshObject => empty_options
  end.

(** ** Calls that may throw *)

Inductive JsError : Type :=
| LoadAPIKeyError (description environmentVariableName : string).

Inductive Result (A : Type) : Type :=
| Ok (a : A)
| Throw (e : JsError).
Arguments Ok {A} a.
Arguments Throw {A} e.

Definition M (A : Type) : Type := World -> Result A.

Definition ret {A} (a : A) : M A := fun _ => Ok a.

Definition bind {A B} (c : M A) (k : A -> M B) : M B :=
  fun w => match c w with
           | Ok a => k a w
           | Throw e => Throw e
           end.

Definition throw {A} (e : JsError) : M A := fun _ => Throw e.

Definition ask : M World := fun w => Ok w.

Notation "'let*' x ':=' c 'in' k" := (bind c (fun x => k))
  (at level 10, x name, c at level 100, k at level 200).

(** [options.f], read now. *)
Definition readOptions (options : OptionsVar) : M DeepInfraProviderSettings :=
  let* w := ask in ret (deref options w).

(** ** Object literals *)

(** [{ k1: v1, ..., kn: vn }] written over [target]: the properties are set
    in source order, a later one replacing an earlier one of the same name. *)
Definition set_props {V} (props : list (string * V)) (target : gmap string V)
  : gmap string V :=
  fold_left (fun m kv => <[kv.1 := kv.2]> m) props target.

(** [{ ...target-so-far, ...source }]: every own property of [source] is
    copied over the object built so far; spreading [undefined] copies
    nothing. *)
Definition spread {V} (source : option (gmap string V)) (target : gmap string V)
  : gmap string V :=
  default ∅ source ∪ target.

(** A string used as a condition: only the empty string is falsy. *)
Definition truthy (s : string) : bool :=
  match s with
  | EmptyString => false
  | String _ _ => true
  end.

(** ** Imported helpers *)

(** The last character is removed when it is a slash. *)
Fixpoint dropLastSlash (s : string) : string :=
  match s with
  | EmptyString => EmptyString
  | String c rest =>
      match rest with
      | EmptyString => if decide (s = "/") then EmptyString else s
      | String _ _ => String c (dropLastSlash rest)
      end
  end.

(** Modelled from the spec: [withoutTrailingSlash] is imported from
    [@ai-sdk/provider-utils] (packages/provider-utils), not defined in this
    file.  The spec: "[baseURL] (optional string): trailing slash
    stripped if present". *)
Definition withoutTrailingSlash (url : string) : string := dropLastSlash url.

Record LoadApiKeyArgs : Type := {
  la_apiKey : option string;
  la_environmentVariableName : string;
  la_description : string
}.

(** Modelled from the spec: [loadApiKey] is imported from
    [@ai-sdk/provider-utils] (packages/provider-utils), not defined in this
    file.  The spec: "[apiKey] (optional string): if absent,
    resolution falls back to an environment-style lookup; if that also
    fails, the resulting error is surfaced", the lookup being of the
    environment variable named in the call. *)
Definition loadApiKey (args : LoadApiKeyArgs) : M string :=
  match la_apiKey args with
  | Some key => ret key
  | None =>
      let* w := ask in
      match process_env w !! la_environmentVariableName args with
      | Some key => ret key
      | None => throw (LoadAPIKeyError (la_description args)
                                       (la_environmentVariableName args))
      end
  end.

(** ** Configuration records and model instances *)

(** The argument [{ path }] of a URL resolver. *)
Record UrlArgs : Type := { path : string }.

(** The values found in a configuration record. *)
Inductive ConfigValue : Type :=
| VString (s : string)
| VUrlFn (f : UrlArgs -> string)
| VHeadersFn (f : M (gmap string string))
| VFetch (f : FetchFunction)
| VUndefined.

(** [options.fetch] as a property value. *)
Definition fetch_value (f : option FetchFunction) : ConfigValue :=
  match f with
  | Some f => VFetch f
  | None => VUndefined
  end.

(** The per-model settings types are declared in the [deepinfra-*-settings]
    files; the adapter never reads a field of them.  A settings object is a
    finite map of primitive values. *)
Inductive JsPrim : Type :=
| PString (s : string)
| PBool (b : bool)
| PNumber (z : Z).

Inductive ModelClass : Type :=
| OpenAICompatibleChatLanguageModel
| OpenAICompatibleCompletionLanguageModel
| OpenAICompatibleEmbeddingModel
| DeepInfraImageModel.

(** Modelled from the spec: the four model classes live in
    [@ai-sdk/openai-compatible] and [./deepinfra-image-model], not in this
    file.  The spec: they "each accept [(modelId, settings,
    config)]" and return "opaque objects".  An instance is the record of the
    constructor call that made it. *)
Record ModelInstance : Type := {
  class : ModelClass;
  modelId : string;
  settings : gmap string JsPrim;
  config : gmap string ConfigValue
}.

Definition new (c : ModelClass) (modelId : string) (settings : gmap string JsPrim)
    (config : gmap string ConfigValue) : M ModelInstance :=
  ret {| class := c; modelId := modelId; settings := settings; config := config |}.

(** A factory method: [(modelId, settings?) => model]. *)
Definition ModelFactory : Type := string -> option (gmap string JsPrim) -> M ModelInstance.

(** The provider: a function with six more functions as properties. *)
Record DeepInfraProvider : Type := {
  call : ModelFactory;
  completionModel : ModelFactory;
  chatModel : ModelFactory;
  image : ModelFactory;
  imageModel : ModelFactory;
  languageModel : ModelFactory;
  textEmbeddingModel : ModelFactory
}.

(** ** The closures of [createDeepInfra] *)

Section closures.
(** What the closures capture: the reference [options] and the constant
    [baseURL]. *)
Variable options : OptionsVar.
Variable baseURL : string.

Definition getHeaders : M (gmap string string) :=
  let* o := readOptions options in
  let* key := loadApiKey {| la_apiKey := Options.apiKey o;
                            la_environmentVariableName := "DEEPINFRA_API_KEY";
                            la_description := "DeepInfra's API key" |} in
  ret (spread (Options.headers o)
         (set_props [("Authorization", "Bearer " +:+ key)] ∅)).

Definition getCommonModelConfig (modelType : string) : M (gmap string ConfigValue) :=
  let* o := readOptions options in
  ret (set_props
         [("provider", VString ("deepinfra." +:+ modelType));
          ("url", VUrlFn (fun a => baseURL +:+ "/openai" +:+ path a));
          ("headers", VHeadersFn getHeaders);
          ("fetch", fetch_value (Options.fetch o))] ∅).

Definition createChatModel (modelId : string) (settings : option (gmap string JsPrim))
  : M ModelInstance :=
  let settings := default ∅ settings in
  let* common := getCommonModelConfig "chat" in
  new OpenAICompatibleChatLanguageModel modelId settings
    (set_props [("defaultObjectGenerationMode", VString "json")]
       (spread (Some common) ∅)).

Definition createCompletionModel (modelId : string) (settings : option (gmap string JsPrim))
  : M ModelInstance :=
  let settings := default ∅ settings in
  let* common := getCommonModelConfig "completion" in
  new OpenAICompatibleCompletionLanguageModel modelId settings common.

Definition createTextEmbeddingModel (modelId : string) (settings : option (gmap string JsPrim))
  : M ModelInstance :=
  let settings := default ∅ settings in
  let* common := getCommonModelConfig "embedding" in
  new OpenAICompatibleEmbeddingModel modelId settings common.

Definition createImageModel (modelId : string) (settings : option (gmap string JsPrim))
  : M ModelInstance :=
  let settings := default ∅ settings in
  let* common := getCommonModelConfig "image" in
  new DeepInfraImageModel modelId settings
    (set_props
       [("baseURL", VString (if truthy baseURL
                             then baseURL +:+ "/inference"
                             else "https://api.deepinfra.com/v1/inference"))]
       (spread (Some common) ∅)).

Definition provider : DeepInfraProvider :=
  {| call := fun modelId settings => createChatModel modelId settings;
     completionModel := createCompletionModel;
     chatModel := createChatModel;
     image := createImageModel;
     imageModel := createImageModel;
     languageModel := createChatModel;
     textEmbeddingModel := createTextEmbeddingModel |}.
End closures.

(** ** The factory *)

(** [createDeepInfra(options = {})]: the argument is a reference to the
    caller's settings object, or absent. *)
Definition createDeepInfra (arg : option loc) : M DeepInfraProvider :=
  let options := match arg with
                 | Some l => CallerObject l
                 | None => FreshObject
                 end in
  let* o := readOptions options in
  let baseURL := withoutTrailingSlash
                   (default "https://api.deepinfra.com/v1" (Options.baseURL o)) in
  ret (provider options baseURL).

(** [export const deepinfra = createDeepInfra();] *)
Definition deepinfra : M DeepInfraProvider := createDeepInfra None.

(** ** What the specification says, in its own words *)

(** "trailing slash stripped if present": [stripped b r] when [r] is [b]
    without its final slash, or [b] itself when [b] does not end in one. *)
Inductive stripped : string -> string -> Prop :=
| stripped_slash (b : string) : stripped (b +:+ "/") b
| stripped_none (b : string) : (forall b', b <> b' +:+ "/") -> stripped b b.

(** The base of every URL: "the supplied baseURL with a trailing slash
    stripped if present", the DeepInfra origin "when baseURL is omitted". *)
Inductive spec_base : option string -> string -> Prop :=
| spec_base_omitted : spec_base None "https://api.deepinfra.com/v1"
| spec_base_supplied (b r : string) : stripped b r -> spec_base (Some b) r.

(** "[options.apiKey], falling back to the DEEPINFRA_API_KEY environment
    lookup". *)
Definition spec_api_key (apiKey : option string) (env : gmap string string)
  : option string :=
  match apiKey with
  | Some key => Some key
  | None => env !! "DEEPINFRA_API_KEY"
  end.

(** The header set for the settings and environment of the moment: the
    Authorization header of the key, the supplied mapping merged after it;
    an error when there is no key. *)
Definition spec_headers (o : DeepInfraProviderSettings) (env : gmap string string)
  : Result (gmap string string) :=
  match spec_api_key (Options.apiKey o) env with
  | Some key =>
      Ok (default ∅ (Options.headers o) ∪ {[ "Authorization" := "Bearer " +:+ key ]})
  | None => Throw (LoadAPIKeyError "DeepInfra's API key" "DEEPINFRA_API_KEY")
  end.

(** "[{resolvedBaseURL}/inference]", the fixed address "when the resolved
    base URL is falsy". *)
Definition spec_inference_url (resolved : string) : string :=
  if decide (resolved = "") then "https://api.deepinfra.com/v1/inference"
  else resolved +:+ "/inference".

(** ** Names used by the statements *)

(** The binding [options] for a call [createDeepInfra(arg)]. *)
Definition options_of (arg : option loc) : OptionsVar :=
  match arg with
  | Some l => CallerObject l
  | None => FreshObject
  end.

(** The argument of [loadApiKey] when [getHeaders] runs on settings [o]. *)
Definition key_request (o : DeepInfraProviderSettings) : LoadApiKeyArgs :=
  {| la_apiKey := Options.apiKey o;
     la_environmentVariableName := "DEEPINFRA_API_KEY";
     la_description := "DeepInfra's API key" |}.

(** The seven ways to ask a provider for a model, and those that make a
    chat, completion or embedding model, or an image model. *)
Definition openai_methods (p : DeepInfraProvider) : list ModelFactory :=
  [call p; chatModel p; languageModel p; completionModel p; textEmbeddingModel p].

Definition image_methods (p : DeepInfraProvider) : list ModelFactory :=
  [image p; imageModel p].

Definition all_methods (p : DeepInfraProvider) : list ModelFactory :=
  openai_methods p ++ image_methods p.

(** Each method with the model kind it is documented to create. *)
Definition methods_by_kind (p : DeepInfraProvider) : list (ModelFactory * string) :=
  [(call p, "chat"); (chatModel p, "chat"); (languageModel p, "chat");
   (completionModel p, "completion"); (textEmbeddingModel p, "embedding");
   (image p, "image"); (imageModel p, "image")].

(** Worlds and settings for the examples. *)
Definition no_settings : loc -> DeepInfraProviderSettings := fun _ => empty_options.

Definition bare_world : World := {| heap := no_settings; process_env := ∅ |}.

Definition keyed_world (key : string) : World :=
  {| heap := no_settings; process_env := {[ "DEEPINFRA_API_KEY" := key ]} |}.

Definition sample_options : DeepInfraProviderSettings :=
  {| Options.apiKey := Some "secret";
     Options.baseURL := Some "https://x/y/";
     Options.headers := Some {[ "X-Trace" := "1" ]};
     Options.fetch := Some (FetchRef 7) |}.

Definition sample_loc : loc := 1%positive.

Definition sample_world : World :=
  {| heap := fun _ => sample_options; process_env := ∅ |}.

(** "CommonModelConfig: [...] a provider-tag string, a URL-resolver function
    [...], a header-resolver function [...], and an optional fetch override":
    what the record [c] built for [kind] in world [w] holds, by a provider
    whose closures captured [options] and [base]. *)
Record common_config_of (options : OptionsVar) (base kind : string) (w : World)
    (c : gmap string ConfigValue) : Prop := {
  cc_provider : c !! "provider" = Some (VString ("deepinfra." +:+ kind));
  cc_url : c !! "url" = Some (VUrlFn (fun a => base +:+ "/openai" +:+ path a));
  cc_headers : c !! "headers" = Some (VHeadersFn (getHeaders options));
  cc_fetch : c !! "fetch" = Some match Options.fetch (deref options w) with
                                  | Some f => VFetch f
                                  | None => VUndefined
                                  end;
  cc_dom : dom c = {[ "provider"; "url"; "headers"; "fetch" ]}
}.

(** ** Names used by the further properties *)

(** The provider tag that goes with each model class. *)
Definition tag_of_class (c : ModelClass) : string :=
  match c with
  | OpenAICompatibleChatLanguageModel => "deepinfra.chat"
  | OpenAICompatibleCompletionLanguageModel => "deepinfra.completion"
  | OpenAICompatibleEmbeddingModel => "deepinfra.embedding"
  | DeepInfraImageModel => "deepinfra.image"
  end.

(** The property names of the configuration each class is constructed with. *)
Definition config_keys (c : ModelClass) : gset string :=
  match c with
  | OpenAICompatibleChatLanguageModel =>
      {[ "provider"; "url"; "headers"; "fetch"; "defaultObjectGenerationMode" ]}
  | OpenAICompatibleCompletionLanguageModel
  | OpenAICompatibleEmbeddingModel =>
      {[ "provider"; "url"; "headers"; "fetch" ]}
  | DeepInfraImageModel =>
      {[ "provider"; "url"; "headers"; "fetch"; "baseURL" ]}
  end.

(** Each method with the class its declaration says it instantiates. *)
Definition methods_by_class (p : DeepInfraProvider) : list (ModelFactory * ModelClass) :=
  [(call p, OpenAICompatibleChatLanguageModel);
   (chatModel p, OpenAICompatibleChatLanguageModel);
   (languageModel p, OpenAICompatibleChatLanguageModel);
   (completionModel p, OpenAICompatibleCompletionLanguageModel);
   (textEmbeddingModel p, OpenAICompatibleEmbeddingModel);
   (image p, DeepInfraImageModel);
   (imageModel p, DeepInfraImageModel)].

(** The sample settings after the caller has rewritten them: no key and no
    headers any more, the same [baseURL] and [fetch]; a key in the
    environment. *)
Definition rotated_options : DeepInfraProviderSettings :=
  {| Options.apiKey := None;
     Options.baseURL := Some "https://x/y/";
     Options.headers := None;
     Options.fetch := Some (FetchRef 7) |}.

Definition rotated_world : World :=
  {| heap := fun _ => rotated_options;
     process_env := {[ "DEEPINFRA_API_KEY" := "k" ]} |}.

(** Settings whose [baseURL] is the empty string. *)
Definition rootless_options : DeepInfraProviderSettings :=
  {| Options.apiKey := None;
     Options.baseURL := Some "";
     Options.headers := None;
     Options.fetch := None |}.

Definition rootless_world : World :=
  {| heap := fun _ => rootless_options; process_env := ∅ |}.



(** * Properties *)

(** ** Object literals *)

Lemma spread_over_empty {V} (m : gmap string V) : spread (Some m) ∅ = m.
Proof. unfold spread; simpl. apply (right_id_L ∅ (∪)). Qed.

(** ** The trailing slash *)

Lemma append_slash_nonempty (b : string) : b +:+ "/" <> "".
Proof. destruct b; discriminate. Qed.

Lemma stripped_cons (c : Ascii.ascii) (s r : string) :
  s <> "" -> stripped s r -> stripped (String c s) (String c r).
Proof.
  intros Hs H. destruct H as [b|b Hno].
  - exact (stripped_slash (String c b)).
  - apply stripped_none. intros [|d b'] E; simpl in E.
    + injection E as _ E. exact (Hs E).
    + injection E as _ E. exact (Hno b' E).
Qed.

Lemma dropLastSlash_stripped (s : string) : stripped s (dropLastSlash s).
Proof.
  induction s as [|c rest IH].
  - simpl. apply stripped_none. intros b' E. symmetry in E.
    exact (append_slash_nonempty b' E).
  - destruct rest as [|c' rest'].
    + simpl. destruct (decide (String c "" = "/")) as [E|NE].
      * rewrite E. exact (stripped_slash "").
      * apply stripped_none. intros [|d b'] E; simpl in E.
        -- exact (NE E).
        -- injection E as _ E. exact (append_slash_nonempty b' (eq_sym E)).
    + change (dropLastSlash (String c (String c' rest')))
        with (String c (dropLastSlash (String c' rest'))).
      apply stripped_cons; [discriminate | exact IH].
Qed.

Lemma append_slash_inj (b1 b2 : string) : b1 +:+ "/" = b2 +:+ "/" -> b1 = b2.
Proof.
  revert b2. induction b1 as [|c b1 IH]; intros [|d b2] E; simpl in E.
  - reflexivity.
  - injection E as _ E. destruct b2; discriminate E.
  - injection E as _ E. destruct b1; discriminate E.
  - injection E as <- E. f_equal. exact (IH b2 E).
Qed.

Lemma stripped_functional (b r1 r2 : string) :
  stripped b r1 -> stripped b r2 -> r1 = r2.
Proof.
  intros H1 H2. destruct H1 as [r1|b Hno1].
  - remember (r1 +:+ "/") as b eqn:Eb. destruct H2 as [r2|b Hno2].
    + exact (append_slash_inj r1 r2 (eq_sym Eb)).
    + exfalso. exact (Hno2 r1 Eb).
  - destruct H2 as [r2|b Hno2].
    + exfalso. exact (Hno1 r2 eq_refl).
    + reflexivity.
Qed.

Lemma resolved_base_spec (o : DeepInfraProviderSettings) :
  spec_base (Options.baseURL o)
    (withoutTrailingSlash (default "https://api.deepinfra.com/v1" (Options.baseURL o))).
Proof.
  destruct (Options.baseURL o) as [b|]; simpl.
  - apply spec_base_supplied. apply dropLastSlash_stripped.
  - exact spec_base_omitted.
Qed.

(** ** Reading the world *)

Lemma readOptions_run (options : OptionsVar) (w : World) :
  readOptions options w = Ok (deref options w).
Proof. reflexivity. Qed.

Lemma loadApiKey_spec (o : DeepInfraProviderSettings) (w : World) :
  loadApiKey (key_request o) w
  = match spec_api_key (Options.apiKey o) (process_env w) with
    | Some key => Ok key
    | None => Throw (LoadAPIKeyError "DeepInfra's API key" "DEEPINFRA_API_KEY")
    end.
Proof.
  unfold loadApiKey, spec_api_key, key_request; simpl.
  destruct (Options.apiKey o) as [key|]; [reflexivity|].
  unfold bind, ask; simpl.
  destruct (process_env w !! "DEEPINFRA_API_KEY"); reflexivity.
Qed.

(** [getHeaders] asks for the key with the settings of the moment, and
    merges the supplied headers over the Authorization header. *)
Lemma getHeaders_run (options : OptionsVar) (w : World) :
  getHeaders options w
  = match loadApiKey (key_request (deref options w)) w with
    | Ok key =>
        Ok (default ∅ (Options.headers (deref options w))
              ∪ {[ "Authorization" := "Bearer " +:+ key ]})
    | Throw e => Throw e
    end.
Proof.
  unfold getHeaders, bind. rewrite readOptions_run.
  fold (key_request (deref options w)).
  destruct (loadApiKey (key_request (deref options w)) w); reflexivity.
Qed.

Lemma getHeaders_spec (options : OptionsVar) (w : World) :
  getHeaders options w = spec_headers (deref options w) (process_env w).
Proof.
  rewrite getHeaders_run, loadApiKey_spec. unfold spec_headers.
  destruct (spec_api_key _ _); reflexivity.
Qed.

(** ** The configuration records *)

Lemma truthy_nonempty (s : string) : truthy s = if decide (s = "") then false else true.
Proof. destruct s; reflexivity. Qed.

Lemma getCommonModelConfig_ok (options : OptionsVar) (base kind : string) (w : World) :
  exists common,
    getCommonModelConfig options base kind w = Ok common
    /\ common_config_of options base kind w common.
Proof.
  eexists. split; [reflexivity|].
  split; simpl; reflexivity.
Qed.

Lemma common_has_no_mode options base kind w (c : gmap string ConfigValue) :
  common_config_of options base kind w c ->
  c !! "defaultObjectGenerationMode" = None /\ c !! "baseURL" = None.
Proof.
  intros H. split; apply not_elem_of_dom; rewrite (cc_dom _ _ _ _ _ H);
    rewrite !elem_of_union, !elem_of_singleton; intros E;
    repeat destruct E as [E|E]; discriminate E.
Qed.

Section methods.
Variables (options : OptionsVar) (base : string).
Variables (id : string) (s : option (gmap string JsPrim)) (w : World).

Lemma createChatModel_ok :
  exists common,
    getCommonModelConfig options base "chat" w = Ok common
    /\ common_config_of options base "chat" w common
    /\ createChatModel options base id s w
       = Ok {| class := OpenAICompatibleChatLanguageModel;
               modelId := id; settings := default ∅ s;
               config := <["defaultObjectGenerationMode" := VString "json"]> common |}.
Proof.
  destruct (getCommonModelConfig_ok options base "chat" w) as [common [Hrun Hc]].
  exists common. split; [exact Hrun|]. split; [exact Hc|].
  unfold createChatModel, bind. rewrite Hrun. unfold new, ret.
  rewrite spread_over_empty. reflexivity.
Qed.

Lemma createCompletionModel_ok :
  exists common,
    getCommonModelConfig options base "completion" w = Ok common
    /\ common_config_of options base "completion" w common
    /\ createCompletionModel options base id s w
       = Ok {| class := OpenAICompatibleCompletionLanguageModel;
               modelId := id; settings := default ∅ s; config := common |}.
Proof.
  destruct (getCommonModelConfig_ok options base "completion" w) as [common [Hrun Hc]].
  exists common. split; [exact Hrun|]. split; [exact Hc|].
  unfold createCompletionModel, bind. rewrite Hrun. reflexivity.
Qed.

Lemma createTextEmbeddingModel_ok :
  exists common,
    getCommonModelConfig options base "embedding" w = Ok common
    /\ common_config_of options base "embedding" w common
    /\ createTextEmbeddingModel options base id s w
       = Ok {| class := OpenAICompatibleEmbeddingModel;
               modelId := id; settings := default ∅ s; config := common |}.
Proof.
  destruct (getCommonModelConfig_ok options base "embedding" w) as [common [Hrun Hc]].
  exists common. split; [exact Hrun|]. split; [exact Hc|].
  unfold createTextEmbeddingModel, bind. rewrite Hrun. reflexivity.
Qed.

Lemma createImageModel_ok :
  exists common,
    getCommonModelConfig options base "image" w = Ok common
    /\ common_config_of options base "image" w common
    /\ createImageModel options base id s w
       = Ok {| class := DeepInfraImageModel;
               modelId := id; settings := default ∅ s;
               config := <["baseURL" := VString (spec_inference_url base)]> common |}.
Proof.
  destruct (getCommonModelConfig_ok options base "image" w) as [common [Hrun Hc]].
  exists common. split; [exact Hrun|]. split; [exact Hc|].
  unfold createImageModel, bind. rewrite Hrun. unfold new, ret.
  rewrite spread_over_empty. unfold spec_inference_url.
  rewrite truthy_nonempty. destruct (decide (base = "")); reflexivity.
Qed.
End methods.

Lemma createDeepInfra_run (arg : option loc) (w0 : World) :
  createDeepInfra arg w0
  = Ok (provider (options_of arg)
          (withoutTrailingSlash
             (default "https://api.deepinfra.com/v1"
                (Options.baseURL (deref (options_of arg) w0))))).
Proof. destruct arg; reflexivity. Qed.

(** Lookups in a record that extends a common configuration. *)
Ltac common_lookup Hc :=
  simpl; rewrite ?lookup_insert_eq, ?lookup_insert_ne by done;
  first [ reflexivity
        | exact (cc_provider _ _ _ _ _ Hc)
        | exact (cc_url _ _ _ _ _ Hc)
        | exact (cc_headers _ _ _ _ _ Hc)
        | exact (cc_fetch _ _ _ _ _ Hc) ].

(** Run the method in the goal and name the common record it was built on. *)
Ltac run_method common Hrun Hc Hm :=
  lazymatch goal with
  | |- context [createChatModel ?o ?b ?i ?s ?w] =>
      destruct (createChatModel_ok o b i s w) as [common [Hrun [Hc Hm]]]
  | |- context [createCompletionModel ?o ?b ?i ?s ?w] =>
      destruct (createCompletionModel_ok o b i s w) as [common [Hrun [Hc Hm]]]
  | |- context [createTextEmbeddingModel ?o ?b ?i ?s ?w] =>
      destruct (createTextEmbeddingModel_ok o b i s w) as [common [Hrun [Hc Hm]]]
  | |- context [createImageModel ?o ?b ?i ?s ?w] =>
      destruct (createImageModel_ok o b i s w) as [common [Hrun [Hc Hm]]]
  end.

(** Split a statement about a list of methods into one goal per method. *)
Ltac each_method :=
  unfold all_methods, openai_methods, image_methods; simpl;
  repeat apply List.Forall_cons; try apply List.Forall_nil; simpl.

(** ** The provider object *)

(** C1: calling the provider object itself gives the same result as calling
    its [chatModel] method with the same arguments, in every world: the same
    chat-model instance with the same configuration record and the provider
    tag "deepinfra.chat".  [languageModel] is the very function [chatModel]
    is, and [image] the very function [imageModel] is. *)
Theorem provider_call_is_chatModel (arg : option loc) (w0 : World) :
  exists p,
    createDeepInfra arg w0 = Ok p
    /\ (forall id s w, call p id s w = chatModel p id s w)
    /\ (forall id s w, exists inst,
           call p id s w = Ok inst
           /\ class inst = OpenAICompatibleChatLanguageModel
           /\ config inst !! "provider" = Some (VString "deepinfra.chat"))
    /\ languageModel p = chatModel p
    /\ image p = imageModel p.
Proof.
  eexists. split; [apply createDeepInfra_run|].
  split; [reflexivity|]. split; [|split; reflexivity].
  intros id s w; simpl.
  run_method common Hrun Hc Hm.
  eexists. split; [exact Hm|]. split; [reflexivity|]. common_lookup Hc.
Qed.

(** ** Headers *)

(** C2: header resolution is lazy.  Building the provider and building a
    model succeed in every world, whether or not a key can be found there;
    the header resolver placed in the model's configuration, called later in
    a world [w2], works from the settings object and the environment as they
    are in [w2]: the key is [options.apiKey] or else the DEEPINFRA_API_KEY
    variable, and the error for a missing key is the result of that call
    (and of nothing earlier). *)
Theorem headers_resolved_at_call_time (arg : option loc) (w0 : World) :
  exists p,
    createDeepInfra arg w0 = Ok p
    /\ Forall (fun m : ModelFactory => forall id s w1, exists inst h,
          m id s w1 = Ok inst
          /\ config inst !! "headers" = Some (VHeadersFn h)
          /\ forall w2, h w2 = spec_headers (deref (options_of arg) w2) (process_env w2))
        (all_methods p).
Proof.
  eexists. split; [apply createDeepInfra_run|].
  each_method; intros id s w1;
    run_method common Hrun Hc Hm;
    (eexists; exists (getHeaders (options_of arg));
     split; [exact Hm|]; split; [common_lookup Hc|]; intros w2; apply getHeaders_spec).
Qed.

(** The same provider and the same model, asked for headers in three
    worlds: no key, then a key, then another key. *)
Example headers_follow_the_environment :
  exists p inst h,
    deepinfra bare_world = Ok p
    /\ chatModel p "m" None bare_world = Ok inst
    /\ config inst !! "headers" = Some (VHeadersFn h)
    /\ h bare_world = Throw (LoadAPIKeyError "DeepInfra's API key" "DEEPINFRA_API_KEY")
    /\ h (keyed_world "k1") = Ok {[ "Authorization" := "Bearer k1" ]}
    /\ h (keyed_world "k2") = Ok {[ "Authorization" := "Bearer k2" ]}.
Proof.
  destruct (createChatModel_ok FreshObject "https://api.deepinfra.com/v1"
              "m" None bare_world) as [common [Hrun [Hc Hm]]].
  exists (provider FreshObject "https://api.deepinfra.com/v1").
  eexists. exists (getHeaders FreshObject).
  split; [reflexivity|]. split; [exact Hm|]. split; [common_lookup Hc|].
  repeat split; vm_compute; reflexivity.
Qed.

(** C3: when the key resolves to [key], the header set is the supplied
    mapping together with the Authorization header: every supplied entry is
    in it with its supplied value; Authorization is always a key of it, with
    value "Bearer key" unless the supplied mapping has an entry of that very
    name, whose value then stands; and it has no other key. *)
Theorem getHeaders_merges_supplied (options : OptionsVar) (w : World) (key : string) :
  loadApiKey (key_request (deref options w)) w = Ok key ->
  exists hs,
    getHeaders options w = Ok hs
    /\ default ∅ (Options.headers (deref options w)) ⊆ hs
    /\ hs !! "Authorization"
       = Some (default ("Bearer " +:+ key)
                 (default ∅ (Options.headers (deref options w)) !! "Authorization"))
    /\ dom hs = {[ "Authorization" ]} ∪ dom (default ∅ (Options.headers (deref options w))).
Proof.
  intros Hkey. rewrite getHeaders_run, Hkey.
  set (supplied := default ∅ (Options.headers (deref options w))).
  eexists. split; [reflexivity|]. split; [|split].
  - apply map_union_subseteq_l.
  - rewrite lookup_union. destruct (supplied !! "Authorization") as [v|] eqn:E; simpl.
    + rewrite lookup_singleton_eq. reflexivity.
    + rewrite lookup_singleton_eq. reflexivity.
  - rewrite dom_union_L, dom_singleton_L. apply (comm_L (∪)).
Qed.

Lemma getHeaders_merges_supplied_witness :
  loadApiKey (key_request (deref (CallerObject sample_loc) sample_world)) sample_world = Ok "secret"
  /\ exists hs,
       getHeaders (CallerObject sample_loc) sample_world = Ok hs
       /\ default ∅ (Options.headers (deref (CallerObject sample_loc) sample_world)) ⊆ hs
       /\ hs !! "Authorization"
          = Some (default ("Bearer " +:+ "secret")
                    (default ∅ (Options.headers (deref (CallerObject sample_loc) sample_world))
                       !! "Authorization"))
       /\ dom hs = {[ "Authorization" ]}
                     ∪ dom (default ∅ (Options.headers (deref (CallerObject sample_loc) sample_world))).
Proof.
  split; [reflexivity|].
  apply (getHeaders_merges_supplied (CallerObject sample_loc) sample_world "secret").
  reflexivity.
Defined.

(** ** URLs *)

(** C4: the URL resolver in the configuration of every chat, completion and
    embedding model (the default call and [languageModel] included) maps a
    path to [base/openai path], where [base] is fixed when the provider is
    built: the supplied [baseURL] with its trailing slash stripped if it has
    one, https://api.deepinfra.com/v1 when [baseURL] is omitted. *)
Theorem url_resolver_appends_openai (arg : option loc) (w0 : World) :
  exists p base,
    createDeepInfra arg w0 = Ok p
    /\ spec_base (Options.baseURL (deref (options_of arg) w0)) base
    /\ Forall (fun m : ModelFactory => forall id s w, exists inst f,
          m id s w = Ok inst
          /\ config inst !! "url" = Some (VUrlFn f)
          /\ forall pth, f {| path := pth |} = base +:+ "/openai" +:+ pth)
        (openai_methods p).
Proof.
  eexists. eexists. split; [apply createDeepInfra_run|].
  split; [apply resolved_base_spec|].
  each_method; intros id s w;
    run_method common Hrun Hc Hm;
    (eexists; eexists; split; [exact Hm|]; split; [common_lookup Hc|];
     intros pth; reflexivity).
Qed.

(** The two bases the specification names. *)
Example base_when_omitted (r : string) :
  spec_base None r -> r = "https://api.deepinfra.com/v1".
Proof. intros H. inversion H. reflexivity. Qed.

Example base_of_x_y_slash (r : string) :
  spec_base (Some "https://x/y/") r -> r = "https://x/y".
Proof.
  intros H. inversion H as [|b r' Hs]; subst.
  exact (stripped_functional _ _ _ Hs (stripped_slash "https://x/y")).
Qed.

(** With [baseURL = "https://x/y/"], a chat model resolves [path] to
    [https://x/y/openai path]. *)
Example url_of_x_y_slash (pth : string) :
  exists p inst f,
    createDeepInfra (Some sample_loc) sample_world = Ok p
    /\ chatModel p "m" None bare_world = Ok inst
    /\ config inst !! "url" = Some (VUrlFn f)
    /\ f {| path := pth |} = "https://x/y/openai" +:+ pth.
Proof.
  destruct (createChatModel_ok (CallerObject sample_loc) "https://x/y"
              "m" None bare_world) as [common [Hrun [Hc Hm]]].
  eexists. eexists. eexists.
  split; [apply createDeepInfra_run|]. split; [exact Hm|].
  split; [common_lookup Hc|]. reflexivity.
Qed.

(** C5: the [baseURL] field of the configuration of every image model is the
    resolved base URL followed by [/inference], a string in which no request
    path takes part; it is https://api.deepinfra.com/v1/inference when the
    resolved base URL is falsy (the empty string). *)
Theorem image_baseURL_is_inference (arg : option loc) (w0 : World) :
  exists p,
    createDeepInfra arg w0 = Ok p
    /\ Forall (fun m : ModelFactory => forall id s w, exists inst,
          m id s w = Ok inst
          /\ class inst = DeepInfraImageModel
          /\ config inst !! "baseURL"
             = Some (VString
                       (spec_inference_url
                          (withoutTrailingSlash
                             (default "https://api.deepinfra.com/v1"
                                (Options.baseURL (deref (options_of arg) w0)))))))
        (image_methods p).
Proof.
  eexists. split; [apply createDeepInfra_run|].
  each_method; intros id s w;
    run_method common Hrun Hc Hm;
    (eexists; split; [exact Hm|]; split; [reflexivity|]; common_lookup Hc).
Qed.

(** An empty resolved base URL ([baseURL: "/"]) gives the fixed address. *)
Example image_baseURL_when_base_is_empty :
  spec_inference_url (withoutTrailingSlash "/") = "https://api.deepinfra.com/v1/inference"
  /\ spec_inference_url (withoutTrailingSlash "https://x/y/") = "https://x/y/inference".
Proof. split; reflexivity. Qed.

(** C6, as stated, fails: the configuration of the image model of the default
    provider has a [url] property, and it is the common resolver: it maps
    [/x] to the [/openai] address. *)
Lemma image_config_has_url_resolver :
  match (let* p := deepinfra in image p "m" None) bare_world with
  | Ok inst =>
      match config inst !! "url" with
      | Some (VUrlFn f) => f {| path := "/x" |} = "https://api.deepinfra.com/v1/openai/x"
      | _ => False
      end
  | Throw _ => False
  end.
Proof. vm_compute. reflexivity. Qed.

(** C6, amended: the configuration of every image model is the common
    configuration for the kind "image" with one more property, an explicit
    [baseURL] string.  It has the five properties [provider], [url],
    [headers], [fetch] and [baseURL], and its [url] is the same [/openai]
    resolver the chat, completion and embedding configurations have. *)
Theorem image_config_extends_common (arg : option loc) (w0 : World) :
  exists p base,
    createDeepInfra arg w0 = Ok p
    /\ Forall (fun m : ModelFactory => forall id s w, exists inst common address,
          m id s w = Ok inst
          /\ getCommonModelConfig (options_of arg) base "image" w = Ok common
          /\ common !! "baseURL" = None
          /\ config inst = <["baseURL" := VString address]> common
          /\ config inst !! "url" = Some (VUrlFn (fun a => base +:+ "/openai" +:+ path a))
          /\ dom (config inst) = {[ "provider"; "url"; "headers"; "fetch"; "baseURL" ]})
        (image_methods p).
Proof.
  eexists. eexists. split; [apply createDeepInfra_run|].
  each_method; intros id s w;
    run_method common Hrun Hc Hm;
    (eexists; exists common; eexists; split; [exact Hm|]; split; [exact Hrun|];
     split; [exact (proj2 (common_has_no_mode _ _ _ _ _ Hc))|];
     split; [reflexivity|]; split; [common_lookup Hc|];
     simpl; rewrite dom_insert_L, (cc_dom _ _ _ _ _ Hc); set_solver).
Qed.

(** ** Configuration records *)

(** C7: for each kind [k] among chat, completion, embedding and image, the
    common configuration has the provider tag "deepinfra." followed by [k],
    a URL resolver, the one header resolver of the provider, and the fetch
    override of the settings as it is: the very function [f] when the
    settings have [fetch: f], [undefined] when they have none; and every
    model instance, whichever method made it, finds these four in its
    configuration, tagged with its own kind. *)
Theorem common_config_per_kind (arg : option loc) (w0 : World) :
  exists p base,
    createDeepInfra arg w0 = Ok p
    /\ (forall w, Forall (fun kind : string => exists common,
           getCommonModelConfig (options_of arg) base kind w = Ok common
           /\ common_config_of (options_of arg) base kind w common)
         ["chat"; "completion"; "embedding"; "image"])
    /\ Forall (fun mk : ModelFactory * string => forall id s w, exists inst,
          mk.1 id s w = Ok inst
          /\ config inst !! "provider" = Some (VString ("deepinfra." +:+ mk.2))
          /\ config inst !! "url" = Some (VUrlFn (fun a => base +:+ "/openai" +:+ path a))
          /\ config inst !! "headers" = Some (VHeadersFn (getHeaders (options_of arg)))
          /\ config inst !! "fetch"
             = Some match Options.fetch (deref (options_of arg) w) with
                    | Some f => VFetch f
                    | None => VUndefined
                    end)
        (methods_by_kind p).
Proof.
  eexists. eexists. split; [apply createDeepInfra_run|]. split.
  - intros w. repeat apply List.Forall_cons; try apply List.Forall_nil;
      apply getCommonModelConfig_ok.
  - unfold methods_by_kind. each_method; intros id s w;
      run_method common Hrun Hc Hm;
      (eexists; split; [exact Hm|]; repeat split; common_lookup Hc).
Qed.

(** A fetch override reaches the model as the reference it is. *)
Example fetch_passed_through :
  exists p inst,
    createDeepInfra (Some sample_loc) sample_world = Ok p
    /\ textEmbeddingModel p "m" None sample_world = Ok inst
    /\ config inst !! "fetch" = Some (VFetch (FetchRef 7))
    /\ config inst !! "provider" = Some (VString "deepinfra.embedding").
Proof.
  destruct (createTextEmbeddingModel_ok (CallerObject sample_loc) "https://x/y"
              "m" None sample_world) as [common [Hrun [Hc Hm]]].
  eexists. eexists. split; [apply createDeepInfra_run|]. split; [exact Hm|].
  split; common_lookup Hc.
Qed.

(** C8: the configuration of a chat model is the common configuration for
    "chat" with exactly one more property, [defaultObjectGenerationMode],
    whose value is the fixed string "json"; the configuration of a completion
    model is the common configuration for "completion" itself, with no
    [defaultObjectGenerationMode] and nothing else added. *)
Theorem chat_adds_mode_completion_adds_nothing (arg : option loc) (w0 : World) :
  exists p base,
    createDeepInfra arg w0 = Ok p
    /\ Forall (fun m : ModelFactory => forall id s w, exists inst common,
          m id s w = Ok inst
          /\ getCommonModelConfig (options_of arg) base "chat" w = Ok common
          /\ common !! "defaultObjectGenerationMode" = None
          /\ config inst = <["defaultObjectGenerationMode" := VString "json"]> common
          /\ dom (config inst) = dom common ∪ {[ "defaultObjectGenerationMode" ]})
        [call p; chatModel p; languageModel p]
    /\ Forall (fun m : ModelFactory => forall id s w, exists inst common,
          m id s w = Ok inst
          /\ getCommonModelConfig (options_of arg) base "completion" w = Ok common
          /\ config inst = common
          /\ config inst !! "defaultObjectGenerationMode" = None)
        [completionModel p].
Proof.
  eexists. eexists. split; [apply createDeepInfra_run|]. split.
  - each_method; intros id s w;
      run_method common Hrun Hc Hm;
      (eexists; exists common; split; [exact Hm|]; split; [exact Hrun|];
       split; [exact (proj1 (common_has_no_mode _ _ _ _ _ Hc))|];
       split; [reflexivity|];
       simpl; rewrite dom_insert_L; apply (comm_L (∪))).
  - each_method; intros id s w;
      run_method common Hrun Hc Hm;
      (eexists; exists common; split; [exact Hm|]; split; [exact Hrun|];
       split; [reflexivity|];
       exact (proj1 (common_has_no_mode _ _ _ _ _ Hc))).
Qed.

(** ** Constructor arguments *)

(** C9, as stated, fails: when the caller gives no settings, the constructor
    does not receive that absent argument; it receives the empty object the
    adapter puts in its place. *)
Lemma omitted_settings_not_passed_verbatim :
  match (let* p := deepinfra in chatModel p "m" None) bare_world with
  | Ok inst => Some (settings inst) <> None /\ settings inst = ∅
  | Throw _ => False
  end.
Proof. simpl. split; [discriminate | reflexivity]. Qed.

(** C9, amended: every method passes the caller's [modelId] as it is as the
    first constructor argument; as the second it passes the caller's settings
    as they are when the caller gives some, and an empty settings object when
    the caller gives none. *)
Theorem constructor_receives_modelId_and_settings (arg : option loc) (w0 : World) :
  exists p,
    createDeepInfra arg w0 = Ok p
    /\ Forall (fun m : ModelFactory => forall id w,
          (forall s, exists inst,
             m id (Some s) w = Ok inst /\ modelId inst = id /\ settings inst = s)
          /\ (exists inst,
             m id None w = Ok inst /\ modelId inst = id /\ settings inst = ∅))
        (all_methods p).
Proof.
  eexists. split; [apply createDeepInfra_run|].
  each_method; intros id w; (split; [intros s|]);
    run_method common Hrun Hc Hm;
    (eexists; split; [exact Hm|]; split; reflexivity).
Qed.

(** ** The default instance *)

(** C10: [deepinfra] is [createDeepInfra()]: the same provider whatever the
    world the module is loaded in.  Its models have no fetch override and no
    header but Authorization, whose key is the value of DEEPINFRA_API_KEY in
    the world the headers are computed in (an error there when it is unset);
    its URLs start from https://api.deepinfra.com/v1. *)
Theorem default_instance :
  exists p,
    (forall w0, deepinfra w0 = Ok p /\ createDeepInfra None w0 = Ok p)
    /\ Forall (fun m : ModelFactory => forall id s w, exists inst h,
          m id s w = Ok inst
          /\ config inst !! "fetch" = Some VUndefined
          /\ config inst !! "headers" = Some (VHeadersFn h)
          /\ forall w2,
               h w2 = match process_env w2 !! "DEEPINFRA_API_KEY" with
                      | Some key => Ok {[ "Authorization" := "Bearer " +:+ key ]}
                      | None => Throw (LoadAPIKeyError "DeepInfra's API key"
                                                       "DEEPINFRA_API_KEY")
                      end)
        (all_methods p)
    /\ Forall (fun m : ModelFactory => forall id s w, exists inst f,
          m id s w = Ok inst
          /\ config inst !! "url" = Some (VUrlFn f)
          /\ forall pth,
               f {| path := pth |} = "https://api.deepinfra.com/v1/openai" +:+ pth)
        (openai_methods p)
    /\ Forall (fun m : ModelFactory => forall id s w, exists inst,
          m id s w = Ok inst
          /\ config inst !! "baseURL"
             = Some (VString "https://api.deepinfra.com/v1/inference"))
        (image_methods p).
Proof.
  exists (provider FreshObject "https://api.deepinfra.com/v1").
  split; [intros w0; split; reflexivity|]. split; [|split].
  - each_method; intros id s w;
      run_method common Hrun Hc Hm;
      (eexists; exists (getHeaders FreshObject);
       split; [exact Hm|]; split; [common_lookup Hc|]; split; [common_lookup Hc|];
       intros w2; rewrite getHeaders_spec; unfold spec_headers; simpl;
       destruct (process_env w2 !! "DEEPINFRA_API_KEY"); [|reflexivity];
       simpl; rewrite (left_id_L ∅ (∪)); reflexivity).
  - each_method; intros id s w;
      run_method common Hrun Hc Hm;
      (eexists; eexists; split; [exact Hm|]; split; [common_lookup Hc|];
       intros pth; reflexivity).
  - each_method; intros id s w;
      run_method common Hrun Hc Hm;
      (eexists; split; [exact Hm|]; common_lookup Hc).
Qed.

(** * Further properties of the factory *)

Lemma append_assoc (a b c : string) : (a +:+ b) +:+ c = a +:+ (b +:+ c).
Proof.
  induction a as [|x a IH]; [reflexivity|].
  change (String x ((a +:+ b) +:+ c) = String x (a +:+ (b +:+ c))).
  rewrite IH. reflexivity.
Qed.

(** What [getCommonModelConfig] reads from the world is [options.fetch]. *)
Lemma getCommonModelConfig_reads_fetch (options : OptionsVar) (base kind : string)
    (w w' : World) :
  Options.fetch (deref options w) = Options.fetch (deref options w') ->
  getCommonModelConfig options base kind w = getCommonModelConfig options base kind w'.
Proof.
  intros H. unfold getCommonModelConfig, bind, readOptions, ask, ret. simpl.
  rewrite H. reflexivity.
Qed.

(** Two runs of one [create*Model] function in worlds with the same
    [options.fetch] build on the same common record. *)
Ltac same_common H :=
  lazymatch goal with
  | Hrun : getCommonModelConfig ?o ?b ?k ?w = Ok ?c,
    Hrun' : getCommonModelConfig ?o ?b ?k ?w' = Ok ?c' |- _ =>
      rewrite (getCommonModelConfig_reads_fetch o b k w w' H) in Hrun;
      rewrite Hrun' in Hrun; injection Hrun as Hrun; subst c'
  end.

(** X1: every method instantiates the class its declaration names, and
    tags the configuration with the kind of that class: the default call,
    [chatModel] and [languageModel] make chat models tagged
    "deepinfra.chat", [completionModel] a completion model tagged
    "deepinfra.completion", [textEmbeddingModel] an embedding model tagged
    "deepinfra.embedding", [image] and [imageModel] image models tagged
    "deepinfra.image". *)
Theorem method_class_and_tag (arg : option loc) (w0 : World) :
  exists p,
    createDeepInfra arg w0 = Ok p
    /\ Forall (fun mc : ModelFactory * ModelClass => forall id s w, exists inst,
          mc.1 id s w = Ok inst
          /\ class inst = mc.2
          /\ config inst !! "provider" = Some (VString (tag_of_class mc.2)))
        (methods_by_class p).
Proof.
  eexists. split; [apply createDeepInfra_run|].
  unfold methods_by_class. each_method; intros id s w;
    run_method common Hrun Hc Hm;
    (eexists; split; [exact Hm|]; split; [reflexivity|]; common_lookup Hc).
Qed.

(** X2: the property names of a configuration are fixed by the class: the
    four common ones for completion and embedding models, those and
    [defaultObjectGenerationMode] for chat models, those and [baseURL] for
    image models.  So only image configurations have a [baseURL], only chat
    configurations a [defaultObjectGenerationMode]. *)
Theorem config_keys_by_class (arg : option loc) (w0 : World) :
  exists p,
    createDeepInfra arg w0 = Ok p
    /\ Forall (fun mc : ModelFactory * ModelClass => forall id s w, exists inst,
          mc.1 id s w = Ok inst /\ dom (config inst) = config_keys mc.2)
        (methods_by_class p).
Proof.
  eexists. split; [apply createDeepInfra_run|].
  unfold methods_by_class. each_method; intros id s w;
    run_method common Hrun Hc Hm;
    (eexists; split; [exact Hm|]; simpl;
     rewrite ?dom_insert_L, (cc_dom _ _ _ _ _ Hc);
     first [reflexivity | apply (comm_L (∪))]).
Qed.

(** X3: of the world it is built in, a provider keeps the [baseURL] of the
    settings and nothing else: two calls of [createDeepInfra] on the same
    argument, in worlds where the settings have the same [baseURL], return
    the same provider, whatever the key, the headers, the fetch override and
    the environment are in either world. *)
Theorem provider_fixed_by_baseURL (arg : option loc) (w0 w0' : World) :
  Options.baseURL (deref (options_of arg) w0)
  = Options.baseURL (deref (options_of arg) w0') ->
  exists p, createDeepInfra arg w0 = Ok p /\ createDeepInfra arg w0' = Ok p.
Proof.
  intros H. eexists. split; [apply createDeepInfra_run|].
  rewrite createDeepInfra_run, H. reflexivity.
Qed.

Lemma provider_fixed_by_baseURL_witness :
  Options.baseURL (deref (options_of (Some sample_loc)) sample_world)
  = Options.baseURL (deref (options_of (Some sample_loc)) rotated_world)
  /\ exists p,
       createDeepInfra (Some sample_loc) sample_world = Ok p
       /\ createDeepInfra (Some sample_loc) rotated_world = Ok p.
Proof.
  split; [reflexivity|].
  apply (provider_fixed_by_baseURL (Some sample_loc) sample_world rotated_world).
  reflexivity.
Defined.

(** X4: what a method puts in the configuration depends on the world of the
    call through [options.fetch] only, and not on [modelId] or the settings:
    two calls of one method, in worlds where the settings have the same
    [fetch], give instances of the same class with the same configuration
    record. *)
Theorem config_depends_on_fetch_only (arg : option loc) (w0 w w' : World) :
  Options.fetch (deref (options_of arg) w) = Options.fetch (deref (options_of arg) w') ->
  exists p,
    createDeepInfra arg w0 = Ok p
    /\ Forall (fun m : ModelFactory => forall id s id' s', exists inst inst',
          m id s w = Ok inst
          /\ m id' s' w' = Ok inst'
          /\ class inst = class inst'
          /\ config inst = config inst')
        (all_methods p).
Proof.
  intros H. eexists. split; [apply createDeepInfra_run|].
  each_method; intros id s id' s';
    lazymatch goal with
    | |- context [createChatModel ?o ?b _ _ _] =>
        destruct (createChatModel_ok o b id s w) as [c [Hrun [_ Hm]]];
        destruct (createChatModel_ok o b id' s' w') as [c' [Hrun' [_ Hm']]]
    | |- context [createCompletionModel ?o ?b _ _ _] =>
        destruct (createCompletionModel_ok o b id s w) as [c [Hrun [_ Hm]]];
        destruct (createCompletionModel_ok o b id' s' w') as [c' [Hrun' [_ Hm']]]
    | |- context [createTextEmbeddingModel ?o ?b _ _ _] =>
        destruct (createTextEmbeddingModel_ok o b id s w) as [c [Hrun [_ Hm]]];
        destruct (createTextEmbeddingModel_ok o b id' s' w') as [c' [Hrun' [_ Hm']]]
    | |- context [createImageModel ?o ?b _ _ _] =>
        destruct (createImageModel_ok o b id s w) as [c [Hrun [_ Hm]]];
        destruct (createImageModel_ok o b id' s' w') as [c' [Hrun' [_ Hm']]]
    end;
    same_common H;
    (eexists; eexists; split; [exact Hm|]; split; [exact Hm'|];
     split; reflexivity).
Qed.

Lemma config_depends_on_fetch_only_witness :
  Options.fetch (deref (options_of (Some sample_loc)) sample_world)
  = Options.fetch (deref (options_of (Some sample_loc)) rotated_world)
  /\ exists p,
       createDeepInfra (Some sample_loc) bare_world = Ok p
       /\ Forall (fun m : ModelFactory => forall id s id' s', exists inst inst',
             m id s sample_world = Ok inst
             /\ m id' s' rotated_world = Ok inst'
             /\ class inst = class inst'
             /\ config inst = config inst')
           (all_methods p).
Proof.
  split; [reflexivity|].
  apply (config_depends_on_fetch_only (Some sample_loc) bare_world
           sample_world rotated_world).
  reflexivity.
Defined.

(** X5: an error of [loadApiKey] is the result of the header resolver, as
    it is: in a world where [loadApiKey] throws [e] for the settings' key,
    the header resolver of every model of the provider throws [e], whatever
    headers the settings supply (an Authorization header of the caller's own
    included). *)
Theorem header_resolver_rethrows (arg : option loc) (w0 w : World) (e : JsError) :
  loadApiKey (key_request (deref (options_of arg) w)) w = Throw e ->
  exists p,
    createDeepInfra arg w0 = Ok p
    /\ Forall (fun m : ModelFactory => forall id s w1, exists inst h,
          m id s w1 = Ok inst
          /\ config inst !! "headers" = Some (VHeadersFn h)
          /\ h w = Throw e)
        (all_methods p).
Proof.
  intros He. eexists. split; [apply createDeepInfra_run|].
  each_method; intros id s w1;
    run_method common Hrun Hc Hm;
    (eexists; exists (getHeaders (options_of arg));
     split; [exact Hm|]; split; [common_lookup Hc|];
     rewrite getHeaders_run, He; reflexivity).
Qed.

Lemma header_resolver_rethrows_witness :
  loadApiKey (key_request (deref (options_of None) bare_world)) bare_world
  = Throw (LoadAPIKeyError "DeepInfra's API key" "DEEPINFRA_API_KEY")
  /\ exists p,
       createDeepInfra None sample_world = Ok p
       /\ Forall (fun m : ModelFactory => forall id s w1, exists inst h,
             m id s w1 = Ok inst
             /\ config inst !! "headers" = Some (VHeadersFn h)
             /\ h bare_world
                = Throw (LoadAPIKeyError "DeepInfra's API key" "DEEPINFRA_API_KEY"))
           (all_methods p).
Proof.
  split; [reflexivity|].
  apply (header_resolver_rethrows None sample_world bare_world
           (LoadAPIKeyError "DeepInfra's API key" "DEEPINFRA_API_KEY")).
  reflexivity.
Defined.

(** X6: when the resolved base URL is the empty string, the two families
    part: the URL resolver of chat, completion and embedding models returns
    the host-less [/openai path], while image models are given the fixed
    https://api.deepinfra.com/v1/inference. *)
Theorem empty_base_parts_the_families (arg : option loc) (w0 : World) :
  withoutTrailingSlash
    (default "https://api.deepinfra.com/v1"
       (Options.baseURL (deref (options_of arg) w0))) = "" ->
  exists p,
    createDeepInfra arg w0 = Ok p
    /\ Forall (fun m : ModelFactory => forall id s w, exists inst f,
          m id s w = Ok inst
          /\ config inst !! "url" = Some (VUrlFn f)
          /\ forall pth, f {| path := pth |} = "/openai" +:+ pth)
        (openai_methods p)
    /\ Forall (fun m : ModelFactory => forall id s w, exists inst,
          m id s w = Ok inst
          /\ config inst !! "baseURL"
             = Some (VString "https://api.deepinfra.com/v1/inference"))
        (image_methods p).
Proof.
  intros H. eexists. split; [apply createDeepInfra_run|]. rewrite H. split.
  - each_method; intros id s w;
      run_method common Hrun Hc Hm;
      (eexists; eexists; split; [exact Hm|]; split; [common_lookup Hc|];
       intros pth; reflexivity).
  - each_method; intros id s w;
      run_method common Hrun Hc Hm;
      (eexists; split; [exact Hm|]; common_lookup Hc).
Qed.

Lemma empty_base_parts_the_families_witness :
  withoutTrailingSlash
    (default "https://api.deepinfra.com/v1"
       (Options.baseURL (deref (options_of (Some sample_loc)) rootless_world))) = ""
  /\ exists p,
       createDeepInfra (Some sample_loc) rootless_world = Ok p
       /\ Forall (fun m : ModelFactory => forall id s w, exists inst f,
             m id s w = Ok inst
             /\ config inst !! "url" = Some (VUrlFn f)
             /\ forall pth, f {| path := pth |} = "/openai" +:+ pth)
           (openai_methods p)
       /\ Forall (fun m : ModelFactory => forall id s w, exists inst,
             m id s w = Ok inst
             /\ config inst !! "baseURL"
                = Some (VString "https://api.deepinfra.com/v1/inference"))
           (image_methods p).
Proof.
  split; [reflexivity|].
  apply (empty_base_parts_the_families (Some sample_loc) rootless_world).
  reflexivity.
Defined.

(** X7: a URL resolver only puts a fixed prefix before the path: the URL
    of [p1 p2] is the URL of [p1] followed by [p2], so the URL of any path
    is the URL of the empty path followed by that path; no separator is
    added between [/openai] and the path and nothing of the path is
    rewritten. *)
Theorem url_resolver_only_prepends (arg : option loc) (w0 : World) :
  exists p,
    createDeepInfra arg w0 = Ok p
    /\ Forall (fun m : ModelFactory => forall id s w, exists inst f,
          m id s w = Ok inst
          /\ config inst !! "url" = Some (VUrlFn f)
          /\ (forall p1 p2, f {| path := p1 +:+ p2 |} = f {| path := p1 |} +:+ p2)
          /\ (forall pth, f {| path := pth |} = f {| path := "" |} +:+ pth))
        (openai_methods p).
Proof.
  eexists. split; [apply createDeepInfra_run|].
  each_method; intros id s w;
    run_method common Hrun Hc Hm;
    (eexists; eexists; split; [exact Hm|]; split; [common_lookup Hc|];
     split; [intros p1 p2 | intros pth]; simpl;
     rewrite !append_assoc; reflexivity).
Qed.


